(** * Client factory of the Aurora command line client

    A shallow embedding of
    [src/main/python/apache/aurora/client/factory.py]:
    [make_client_factory], the class [TwitterAuroraClientAPI] it builds,
    and [make_client].

    Python values are a small tagged union, keyword arguments are finite
    maps from parameter names to values, and the effects of the module
    (reading the application options, asking the cluster registry,
    [die], calling the base class constructor) are threaded through an
    explicit world that also records them in a trace. *)

From stdpp Require Import base option list strings gmap.

(** ** Python values *)

(** Modelled from the spec: the class [Cluster] of
    [apache.aurora.common.cluster] is imported, not defined, by the
    module.  A descriptor is a named bundle of connection attributes. *)
Record Cluster := mkCluster {
  name : string;
  attributes : list (string * string)
}.

#[global] Instance Cluster_eq_dec : EqDecision Cluster.
Proof. solve_decision. Defined.

Inductive PyVal :=
| PNone
| PBool (b : bool)
| PStr (s : string)
| PCluster (c : Cluster).

#[global] Instance PyVal_eq_dec : EqDecision PyVal.
Proof. solve_decision. Defined.

(** [a == b] on the values above. *)
Definition py_eq (a b : PyVal) : bool := bool_decide (a = b).

(** Keyword arguments ([**kw]): a dict from parameter name to value. *)
Abbreviation Kwargs := (gmap string PyVal).

(** The cluster registry [CLUSTERS]: cluster name to descriptor. *)
Abbreviation Registry := (gmap string Cluster).

Inductive PyExc :=
| TypeError (msg : string)
| KeyError (key : PyVal).

(** ** Clients *)

(** The two base classes the module imports. *)
Inductive BaseClass := AuroraClientAPI | HookedAuroraClientAPI.

#[global] Instance BaseClass_eq_dec : EqDecision BaseClass.
Proof. solve_decision. Defined.

(** Modelled from the spec: the classes [AuroraClientAPI] and
    [HookedAuroraClientAPI] are imported, not defined, by the module.
    An instance is represented by the class it was built from and the
    arguments its base constructor received: the cluster descriptor, the
    positional extras and the keywords. *)
Record ClientInstance := mkClient {
  client_class : BaseClass;
  cluster : Cluster;
  init_args : list PyVal;
  init_kw : Kwargs
}.

(** The factory always hands [user_agent] and [verbose] over by keyword;
    these are the values an instance carries. *)
Definition client_user_agent (c : ClientInstance) : option PyVal :=
  init_kw c !! "user_agent".

Definition client_verbose (c : ClientInstance) : option PyVal :=
  init_kw c !! "verbose".

(** ** Effects *)

Inductive Event :=
| EvGetOptions                      (* app.get_options() *)
| EvContains (key : PyVal)          (* key in CLUSTERS *)
| EvGetItem (key : PyVal)           (* CLUSTERS[key] *)
| EvDie (msg : string)              (* die(msg) *)
| EvInit (cls : BaseClass) (descriptor : Cluster)
         (args : list PyVal) (kw : Kwargs).  (* client_class.__init__ *)

(** The ambient state of the process: the attributes of the object
    [app.get_options()] returns, and what has happened so far. *)
Record World := mkWorld {
  options : Kwargs;
  trace : list Event
}.

Inductive Outcome (A : Type) :=
| Returned (a : A)
| Terminated                        (* die: the operation is abandoned *)
| Raised (e : PyExc).

Arguments Returned {A} a.
Arguments Terminated {A}.
Arguments Raised {A} e.

Definition M (A : Type) : Type := World → Outcome A * World.

#[global] Instance M_ret : MRet M := λ A a w, (Returned a, w).

(** Sequencing stops at the first step that does not return. *)
#[global] Instance M_bind : MBind M := λ A B k m w,
  match m w with
  | (Returned a, w') => k a w'
  | (Terminated, w') => (Terminated, w')
  | (Raised e, w') => (Raised e, w')
  end.

Definition raise {A} (e : PyExc) : M A := λ w, (Raised e, w).

Definition abandon {A} : M A := λ w, (Terminated, w).

Definition ambient_options : M Kwargs := λ w, (Returned (options w), w).

(** The world after some more events; nothing else changes. *)
Definition log (w : World) (es : list Event) : World :=
  mkWorld (options w) (trace w ++ es).

Definition emit (e : Event) : M unit := λ w, (Returned tt, log w [e]).

Definition is_init (e : Event) : bool :=
  match e with EvInit _ _ _ _ => true | _ => false end.

Definition is_get_options (e : Event) : bool :=
  match e with EvGetOptions => true | _ => false end.

Definition is_die (e : Event) : bool :=
  match e with EvDie _ => true | _ => false end.

(** The keys the registry was asked about, in order. *)
Definition registry_keys (t : list Event) : list PyVal :=
  omap (λ e, match e with
             | EvContains key | EvGetItem key => Some key
             | _ => None
             end) t.

(** How often an event of some kind occurs in a trace. *)
Definition count (p : Event → bool) (t : list Event) : nat :=
  length (filter (λ e, p e = true) t).

(** ** Collaborators of the module *)

(** [app.get_options()] hands out the ambient options object. *)
Definition app_get_options : M Kwargs :=
  emit EvGetOptions;; ambient_options.

(** [getattr(obj, attr, default)] *)
Definition getattr (obj : Kwargs) (attr : string) (default : PyVal) : PyVal :=
  match obj !! attr with Some v => v | None => default end.

(** Modelled from the spec: [die] of [apache.aurora.client.base] is
    imported, not defined, by the module.  It emits the diagnostic and
    abandons the current operation; it never returns to its caller. *)
Definition die {A} (msg : string) : M A :=
  emit (EvDie msg);; abandon.

(** [functools.partial(func, **keywords)] and its call: positional
    arguments of the call are appended to the stored ones, keywords of
    the call extend and override the stored ones. *)
Record partial (A : Type) := mkPartial {
  func : list PyVal → Kwargs → M A;
  args : list PyVal;
  keywords : Kwargs
}.

Arguments mkPartial {A} func args keywords.
Arguments func {A} p.
Arguments args {A} p.
Arguments keywords {A} p.

Definition partial_call {A} (p : partial A)
    (fargs : list PyVal) (fkeywords : Kwargs) : M A :=
  func p (args p ++ fargs) (fkeywords ∪ keywords p).

(** Binding the positional arguments [a] and the keywords [k] of a call
    of the class to the parameters of [__init__]: [self], [cluster],
    the starred [args] and the double-starred [kw].  [self] is bound to
    the new instance, so a keyword of that name is a second value for
    it; [cluster] takes the first positional argument or else the
    keyword of its name. *)
Definition bind_init (a : list PyVal) (k : Kwargs)
    : PyExc + (PyVal * list PyVal * Kwargs) :=
  match k !! "self" with
  | Some _ =>
      inl (TypeError "__init__() got multiple values for argument 'self'")
  | None =>
      match a with
      | c :: rest =>
          match k !! "cluster" with
          | Some _ =>
              inl (TypeError
                     "__init__() got multiple values for argument 'cluster'")
          | None => inr (c, rest, k)
          end
      | [] =>
          match k !! "cluster" with
          | Some c => inr (c, [], delete "cluster" k)
          | None =>
              inl (TypeError
                     "__init__() missing 1 required positional argument: 'cluster'")
          end
      end
  end.

(** Two small clusters and a registry used by the examples. *)
Definition west : Cluster := mkCluster "west" [("zk", "zk.west.example.com")].
Definition east : Cluster := mkCluster "east" [("zk", "zk.east.example.com")].
Definition two_clusters : Registry := {[ "west" := west; "east" := east ]}.
Definition show_cluster (c : Cluster) : string := "Cluster(" +:+ name c +:+ ")".
Definition quiet : World := mkWorld ∅ [].
Definition loud : World := mkWorld {[ "verbosity" := PStr "verbose" ]} [].

Section Factory.

(** The registry [CLUSTERS] of [apache.aurora.common.clusters], read
    only, and the string conversion of the absent class [Cluster]. *)
Variable CLUSTERS : Registry.
Variable Cluster_str : Cluster → string.

(** ['%s' % v] *)
Definition py_str (v : PyVal) : string :=
  match v with
  | PNone => "None"
  | PBool true => "True"
  | PBool false => "False"
  | PStr s => s
  | PCluster c => Cluster_str c
  end.

(** Modelled from the spec: the registry is a mapping keyed by cluster
    name with the operations contains and get.  The specification says
    nothing of a key that is not a name; here such a key matches no
    entry.  Where a statement below is about a cluster object handed
    to the bound constructor, it says which key is asked, not what is
    answered. *)
Definition registry_contains (key : PyVal) : M bool :=
  emit (EvContains key);;
  mret (match key with
       | PStr n => bool_decide (is_Some (CLUSTERS !! n))
       | _ => false
       end).

Definition registry_getitem (key : PyVal) : M Cluster :=
  emit (EvGetItem key);;
  match key with
  | PStr n =>
      match CLUSTERS !! n with
      | Some d => mret d
      | None => raise (KeyError key)
      end
  | _ => raise (KeyError key)
  end.

(** Modelled from the spec: the base constructor takes the descriptor
    and the forwarded arguments and yields the instance built from them.
    Errors of the base constructors themselves are not part of this
    model: a call is recorded and taken to succeed. *)
Definition base_init (cls : BaseClass) (descriptor : Cluster)
    (args : list PyVal) (kw : Kwargs) : M ClientInstance :=
  emit (EvInit cls descriptor args kw);;
  mret (mkClient cls descriptor args kw).

(** [TwitterAuroraClientAPI.__init__] of the class derived from
    [base_class], with its parameters [cluster], the starred [args] and
    the double-starred [kw]. *)
Definition TwitterAuroraClientAPI_init (base_class : BaseClass)
    (cluster : PyVal) (args : list PyVal) (kw : Kwargs) : M ClientInstance :=
  known ← registry_contains cluster;
  (if negb known
   then die ("Unknown cluster: " +:+ py_str cluster)
   else mret tt);;
  descriptor ← registry_getitem cluster;
  base_init base_class descriptor args kw.

(** Calling the class with positional arguments [a] and keywords [k]. *)
Definition TwitterAuroraClientAPI (base_class : BaseClass)
    (a : list PyVal) (k : Kwargs) : M ClientInstance :=
  match bind_init a k with
  | inl e => raise e
  | inr (cluster, args, kw) =>
      TwitterAuroraClientAPI_init base_class cluster args kw
  end.

(** [make_client_factory(user_agent, enable_hooks=True)]; an omitted
    [enable_hooks] is [None]. *)
Definition make_client_factory (user_agent : PyVal)
    (enable_hooks : option bool) : M (partial ClientInstance) :=
  let enable_hooks := default true enable_hooks in
  opts ← app_get_options;
  let verbose :=
    py_eq (getattr opts "verbosity" (PStr "normal")) (PStr "verbose") in
  let base_class :=
    if enable_hooks then HookedAuroraClientAPI else AuroraClientAPI in
  mret (mkPartial (TwitterAuroraClientAPI base_class) []
         {[ "user_agent" := user_agent; "verbose" := PBool verbose ]}).

(** [make_client(cluster, user_agent, enable_hooks=True)]; the argument
    of the factory is [cluster.name] for an instance of [Cluster] and
    [cluster] itself otherwise. *)
Definition make_client (cluster : PyVal) (user_agent : PyVal)
    (enable_hooks : option bool) : M ClientInstance :=
  let enable_hooks := default true enable_hooks in
  factory ← make_client_factory user_agent (Some enable_hooks);
  partial_call factory
    [match cluster with PCluster c => PStr (name c) | _ => cluster end] ∅.

(** A factory made and called on the spot: the bound constructor of
    [make_client_factory(user_agent, enable_hooks)] applied to the
    positional arguments [a] and the keywords [k]. *)
Definition factory_then_call (user_agent : PyVal) (enable_hooks : option bool)
    (a : list PyVal) (k : Kwargs) : M ClientInstance :=
  factory ← make_client_factory user_agent enable_hooks;
  partial_call factory a k.

(** ** Vocabulary of the statements *)

(** The registry's entry for a key, as a plain lookup. *)
Definition entry (key : PyVal) : option Cluster :=
  match key with PStr n => CLUSTERS !! n | _ => None end.

(** What the ambient verbosity setting says at the moment [w]. *)
Definition ambient_verbose (w : World) : bool :=
  bool_decide (options w !! "verbosity" = Some (PStr "verbose")).

(** The operations in the words of the specification: [create_factory]
    is the factory operation, [extract_name] takes the name of a resolved
    cluster object and leaves a name as it is, and [create_client_spec]
    applies a fresh factory to the extracted name. *)
Definition extract_name (reference : PyVal) : PyVal :=
  match reference with
  | PCluster c => PStr (name c)
  | PNone | PBool _ | PStr _ => reference
  end.

Definition create_factory (user_agent : PyVal) (hooks_enabled : option bool)
    : M (partial ClientInstance) :=
  make_client_factory user_agent hooks_enabled.

Definition create_client_spec (reference : PyVal) (user_agent : PyVal)
    (hooks_enabled : option bool) : M ClientInstance :=
  λ w, match create_factory user_agent hooks_enabled w with
       | (Returned bound, w1) => partial_call bound [extract_name reference] ∅ w1
       | (Terminated, w1) => (Terminated, w1)
       | (Raised e, w1) => (Raised e, w1)
       end.

(** ** Running the pieces *)

Lemma log_log w es1 es2 : log (log w es1) es2 = log w (es1 ++ es2).
Proof. unfold log; simpl. by rewrite <- app_assoc. Qed.

Lemma trace_log w es : trace (log w es) = trace w ++ es.
Proof. done. Qed.

Lemma count_app p t1 t2 : count p (t1 ++ t2) = count p t1 + count p t2.
Proof. unfold count. by rewrite filter_app, length_app. Qed.

Lemma getattr_verbosity w :
  py_eq (getattr (options w) "verbosity" (PStr "normal")) (PStr "verbose")
  = ambient_verbose w.
Proof.
  unfold py_eq, getattr, ambient_verbose.
  destruct (options w !! "verbosity") as [v|] eqn:E.
  - apply bool_decide_ext. split; congruence.
  - apply bool_decide_ext. split; congruence.
Qed.

Ltac run :=
  unfold TwitterAuroraClientAPI_init, registry_contains, registry_getitem,
    base_init, die, app_get_options, ambient_options, abandon, emit, raise,
    mbind, M_bind, mret, M_ret; simpl.

(** [__init__] on a key the registry has. *)
Lemma init_known base key d a kw w :
  entry key = Some d →
  TwitterAuroraClientAPI_init base key a kw w
  = (Returned (mkClient base d a kw),
     log w [EvContains key; EvGetItem key; EvInit base d a kw]).
Proof.
  destruct key as [| |n|]; simpl; try discriminate. intros E. run.
  rewrite E. rewrite bool_decide_eq_true_2 by eauto. simpl.
  by rewrite !log_log.
Qed.

(** [__init__] on a key the registry lacks. *)
Lemma init_unknown base key a kw w :
  entry key = None →
  TwitterAuroraClientAPI_init base key a kw w
  = (Terminated,
     log w [EvContains key; EvDie ("Unknown cluster: " +:+ py_str key)]).
Proof.
  intros E. run.
  assert (match key with
          | PStr n => bool_decide (is_Some (CLUSTERS !! n))
          | _ => false
          end = false) as ->.
  { destruct key as [| |n|]; try done. simpl in E.
    apply bool_decide_eq_false_2. rewrite E. by intros [? ?]. }
  simpl. by rewrite log_log.
Qed.

(** The factory always returns, reads the options once and captures the
    verbosity of that moment. *)
Lemma factory_run ua hooks w :
  make_client_factory ua hooks w
  = (Returned
       (mkPartial
          (TwitterAuroraClientAPI
             (if default true hooks then HookedAuroraClientAPI
              else AuroraClientAPI))
          []
          {[ "user_agent" := ua; "verbose" := PBool (ambient_verbose w) ]}),
     log w [EvGetOptions]).
Proof.
  unfold make_client_factory. run. by rewrite getattr_verbosity.
Qed.

(** The keywords a call of the bound constructor hands on. *)
Lemma merged_user_agent (k : Kwargs) ua v :
  (k ∪ {[ "user_agent" := ua; "verbose" := v ]}) !! "user_agent"
  = Some (default ua (k !! "user_agent")).
Proof.
  destruct (k !! "user_agent") as [x|] eqn:E; simpl.
  - by apply lookup_union_Some_l.
  - rewrite lookup_union_r by done. by rewrite lookup_insert_eq.
Qed.

Lemma merged_verbose (k : Kwargs) ua v :
  (k ∪ {[ "user_agent" := ua; "verbose" := v ]}) !! "verbose"
  = Some (default v (k !! "verbose")).
Proof.
  destruct (k !! "verbose") as [x|] eqn:E; simpl.
  - by apply lookup_union_Some_l.
  - rewrite lookup_union_r by done.
    rewrite lookup_insert_ne by done. by rewrite lookup_singleton_eq.
Qed.



(** A call of the bound constructor: the keywords of the call are laid
    over the stored ones, then the call is bound to [__init__]. *)
Lemma bound_call base kws reference a k w :
  k !! "cluster" = None →
  k !! "self" = None →
  kws !! "cluster" = None →
  kws !! "self" = None →
  partial_call (mkPartial (TwitterAuroraClientAPI base) [] kws)
    (reference :: a) k w
  = TwitterAuroraClientAPI_init base reference a (k ∪ kws) w.
Proof.
  intros Hk Hs Hkws Hskws.
  unfold partial_call, TwitterAuroraClientAPI, bind_init; simpl.
  rewrite (lookup_union_r k kws "self"), Hskws by done.
  by rewrite lookup_union_r, Hkws by done.
Qed.

Lemma stored_no_cluster (ua v : PyVal) :
  ({[ "user_agent" := ua; "verbose" := v ]} : Kwargs) !! "cluster" = None.
Proof. rewrite lookup_insert_ne by done. by rewrite lookup_singleton_ne. Qed.

Lemma stored_no_self (ua v : PyVal) :
  ({[ "user_agent" := ua; "verbose" := v ]} : Kwargs) !! "self" = None.
Proof. rewrite lookup_insert_ne by done. by rewrite lookup_singleton_ne. Qed.

Lemma merged_self_key (k : Kwargs) ua v :
  (k ∪ {[ "user_agent" := ua; "verbose" := v ]}) !! "self" = k !! "self".
Proof.
  destruct (k !! "self") as [x|] eqn:E.
  - by apply lookup_union_Some_l.
  - rewrite lookup_union_r by done. apply stored_no_self.
Qed.

Ltac stored :=
  first [done | apply stored_no_cluster | apply stored_no_self].

(** [make_client] is the bound constructor of a fresh factory applied to
    the extracted name with no extras. *)
Lemma make_client_run reference ua hooks w :
  make_client reference ua hooks w
  = TwitterAuroraClientAPI_init
      (if default true hooks then HookedAuroraClientAPI else AuroraClientAPI)
      (extract_name reference) []
      {[ "user_agent" := ua; "verbose" := PBool (ambient_verbose w) ]}
      (log w [EvGetOptions]).
Proof.
  unfold make_client. unfold mbind at 1, M_bind at 1.
  rewrite factory_run. simpl default.
  rewrite bound_call by stored.
  rewrite (left_id_L ∅ (∪)).
  by destruct reference.
Qed.

(** [make_client] by cases on the registry's entry for the name. *)
Lemma make_client_cases reference ua hooks w :
  make_client reference ua hooks w
  = let base := if default true hooks then HookedAuroraClientAPI
                else AuroraClientAPI in
    let kw : Kwargs :=
      {[ "user_agent" := ua; "verbose" := PBool (ambient_verbose w) ]} in
    let key := extract_name reference in
    match entry key with
    | Some d =>
        (Returned (mkClient base d [] kw),
         log w [EvGetOptions; EvContains key; EvGetItem key;
                EvInit base d [] kw])
    | None =>
        (Terminated,
         log w [EvGetOptions; EvContains key;
                EvDie ("Unknown cluster: " +:+ py_str key)])
    end.
Proof.
  rewrite make_client_run. simpl.
  destruct (entry (extract_name reference)) as [d|] eqn:E.
  - rewrite (init_known _ _ d) by done. by rewrite log_log.
  - rewrite init_unknown by done. by rewrite log_log.
Qed.

(** Any call of the bound constructor, by cases: the call does not bind,
    or the key is unknown, or a client is built from the entry of the
    key, the positional extras and the merged keywords. *)
Lemma bound_call_cases base ua v a k w :
  let stored : Kwargs := {[ "user_agent" := ua; "verbose" := v ]} in
  let r := partial_call (mkPartial (TwitterAuroraClientAPI base) [] stored) a k w in
  (∃ e, r = (Raised e, w))
  ∨ (∃ key, r = (Terminated,
                 log w [EvContains key;
                        EvDie ("Unknown cluster: " +:+ py_str key)]))
  ∨ (∃ key d rest kw,
       entry key = Some d ∧
       kw !! "user_agent" = Some (default ua (k !! "user_agent")) ∧
       kw !! "verbose" = Some (default v (k !! "verbose")) ∧
       r = (Returned (mkClient base d rest kw),
            log w [EvContains key; EvGetItem key; EvInit base d rest kw])).
Proof.
  intros stored r. subst r. unfold partial_call, TwitterAuroraClientAPI.
  simpl. unfold bind_init.
  assert (∀ key rest kw,
    kw !! "user_agent" = Some (default ua (k !! "user_agent")) →
    kw !! "verbose" = Some (default v (k !! "verbose")) →
    (∃ e, TwitterAuroraClientAPI_init base key rest kw w = (Raised e, w))
    ∨ (∃ key0, TwitterAuroraClientAPI_init base key rest kw w
               = (Terminated,
                  log w [EvContains key0;
                         EvDie ("Unknown cluster: " +:+ py_str key0)]))
    ∨ (∃ key0 d rest0 kw0,
         entry key0 = Some d ∧
         kw0 !! "user_agent" = Some (default ua (k !! "user_agent")) ∧
         kw0 !! "verbose" = Some (default v (k !! "verbose")) ∧
         TwitterAuroraClientAPI_init base key rest kw w
         = (Returned (mkClient base d rest0 kw0),
            log w [EvContains key0; EvGetItem key0;
                   EvInit base d rest0 kw0]))) as Hinit.
  { intros key rest kw Hua Hv.
    destruct (entry key) as [d|] eqn:E.
    - right; right. exists key, d, rest, kw. by rewrite (init_known _ _ d).
    - right; left. exists key. by rewrite init_unknown. }
  destruct ((k ∪ stored) !! "self") as [x|] eqn:Es; [left; by eexists|].
  destruct a as [|key rest]; destruct ((k ∪ stored) !! "cluster") as [c|] eqn:Ec.
  - apply Hinit.
    + rewrite lookup_delete_ne by done. apply merged_user_agent.
    + rewrite lookup_delete_ne by done. apply merged_verbose.
  - left. by eexists.
  - left. by eexists.
  - apply Hinit; [apply merged_user_agent | apply merged_verbose].
Qed.

(** What a call of the bound constructor yields does not depend on the
    world it runs in. *)
Lemma bound_call_world base stored a k wA wB :
  fst (partial_call (mkPartial (TwitterAuroraClientAPI base) [] stored) a k wA)
  = fst (partial_call (mkPartial (TwitterAuroraClientAPI base) [] stored) a k wB).
Proof.
  unfold partial_call, TwitterAuroraClientAPI. simpl.
  destruct (bind_init a (k ∪ stored)) as [e|[[key rest] kw]]; [done|].
  destruct (entry key) as [d|] eqn:E.
  - by rewrite !(init_known _ _ d).
  - by rewrite !init_unknown.
Qed.

(** The two classes differ in the class of what they build only. *)
Lemma init_either key rest kw w :
  match TwitterAuroraClientAPI_init HookedAuroraClientAPI key rest kw w,
        TwitterAuroraClientAPI_init AuroraClientAPI key rest kw w with
  | (Returned ch, wh), (Returned cp, wp) =>
      client_class ch = HookedAuroraClientAPI ∧
      client_class cp = AuroraClientAPI ∧
      cluster ch = cluster cp ∧ init_args ch = init_args cp ∧
      init_kw ch = init_kw cp ∧
      ∃ es d,
        wh = log w (es ++ [EvInit HookedAuroraClientAPI d rest kw]) ∧
        wp = log w (es ++ [EvInit AuroraClientAPI d rest kw]) ∧
        cluster ch = d ∧ init_args ch = rest ∧ init_kw ch = kw
  | (Terminated, wh), (Terminated, wp) => wh = wp
  | (Raised eh, wh), (Raised ep, wp) => eh = ep ∧ wh = wp
  | _, _ => False
  end.
Proof.
  destruct (entry key) as [d|] eqn:E.
  - rewrite !(init_known _ _ d) by done. repeat split.
    by exists [EvContains key; EvGetItem key], d.
  - by rewrite !init_unknown.
Qed.

(** ** The claims *)


(** C2. A cluster name the registry has: [make_client] returns a client
    whose cluster descriptor is the registry's entry for the name, and
    the one base constructor call it makes, its last step, receives
    exactly that descriptor.  This holds for every user agent, so for
    ["agent/1.0"]. *)
Theorem known_cluster_binds (n : string) (d : Cluster) :
  CLUSTERS !! n = Some d →
  ∀ ua hooks w, ∃ c es,
    make_client (PStr n) ua hooks w = (Returned c, log w es) ∧
    cluster c = d ∧
    last es = Some (EvInit (client_class c) d (init_args c) (init_kw c)) ∧
    count is_init es = 1.
Proof.
  intros Hn ua hooks w. eexists _, _. split.
  - rewrite make_client_run. simpl extract_name.
    rewrite (init_known _ (PStr n) d) by done. by rewrite log_log.
  - done.
Qed.


(** C3, as the code has it.  The bound constructor asks the registry
    about the reference as it is given.  Called with a registered name
    it asks about that name, hands the entry of the name to the base
    constructor and, with no extras, returns a client bound to it.
    Called with a cluster object it asks about the object itself and
    never about the name of the object; what the registry answers for
    such a key is not this module's doing.  The name of an object is
    taken by [make_client] before it calls the bound constructor: there
    the registry is asked about the name, and an object with a
    registered name gives a client bound to the entry of that name. *)
Theorem bound_constructor_key ua hooks w0 :
  ∃ bound,
    make_client_factory ua hooks w0 = (Returned bound, log w0 [EvGetOptions]) ∧
    (∀ n d w, CLUSTERS !! n = Some d →
       (∃ c w', partial_call bound [PStr n] ∅ w = (Returned c, w') ∧
                cluster c = d) ∧
       ∀ a (k : Kwargs), k !! "cluster" = None → k !! "self" = None →
         ∃ es cls kw,
           snd (partial_call bound (PStr n :: a) k w) = log w es ∧
           registry_keys es = [PStr n; PStr n] ∧
           last es = Some (EvInit cls d a kw)) ∧
    (∀ obj a (k : Kwargs) w, k !! "cluster" = None → k !! "self" = None →
       ∃ es,
         snd (partial_call bound (PCluster obj :: a) k w) = log w es ∧
         head (registry_keys es) = Some (PCluster obj) ∧
         ∀ key, key ∈ registry_keys es → key = PCluster obj) ∧
    (∀ obj d w, CLUSTERS !! name obj = Some d →
       ∃ c es,
         make_client (PCluster obj) ua hooks w = (Returned c, log w es) ∧
         cluster c = d ∧
         registry_keys es = [PStr (name obj); PStr (name obj)]).
Proof.
  eexists. split; [apply factory_run|]. split; [|split].
  - intros n d w Hn. split.
    + rewrite bound_call by stored.
      rewrite (init_known _ (PStr n) d) by done. by eexists _, _.
    + intros a k Hk Hs. rewrite bound_call by stored.
      rewrite (init_known _ (PStr n) d) by done. by eexists _, _, _.
  - intros obj a k w Hk Hs. rewrite bound_call by stored.
    rewrite init_unknown by done. eexists. split; [done|]. split; [done|].
    intros key Hkey. simpl in Hkey. by apply list_elem_of_singleton in Hkey.
  - intros obj d w Hn. rewrite make_client_cases. simpl. rewrite Hn.
    by eexists _, _.
Qed.

(** C4, as the code has it.  Every client a bound constructor produces
    carries the user agent given to the factory unless the call itself
    passes a [user_agent] keyword, and the verbosity captured when the
    factory was made unless the call itself passes a [verbose] keyword;
    a keyword of the call takes the place of the stored one.  The class
    of the client is fixed by the factory as well. *)
Theorem bound_configuration ua hooks w0 :
  ∃ bound,
    make_client_factory ua hooks w0 = (Returned bound, log w0 [EvGetOptions]) ∧
    ∀ a k w c w',
      partial_call bound a k w = (Returned c, w') →
      (k !! "user_agent" = None → client_user_agent c = Some ua) ∧
      (k !! "verbose" = None →
         client_verbose c = Some (PBool (ambient_verbose w0))) ∧
      client_user_agent c = Some (default ua (k !! "user_agent")) ∧
      client_verbose c
      = Some (default (PBool (ambient_verbose w0)) (k !! "verbose")) ∧
      client_class c = (if default true hooks then HookedAuroraClientAPI
                      else AuroraClientAPI).
Proof.
  eexists. split; [apply factory_run|].
  intros a k w c w' Hcall.
  destruct (bound_call_cases
              (if default true hooks then HookedAuroraClientAPI
               else AuroraClientAPI)
              ua (PBool (ambient_verbose w0)) a k w)
    as [[e He]|[[key Hkey]|(key & d & rest & kw & _ & Hua & Hv & Hr)]].
  - rewrite He in Hcall. discriminate.
  - rewrite Hkey in Hcall. discriminate.
  - rewrite Hr in Hcall. injection Hcall as <- <-.
    unfold client_user_agent, client_verbose. simpl.
    rewrite Hua, Hv. repeat split.
    + by intros ->.
    + by intros ->.
Qed.

(** C5.  With [enable_hooks] true the factory builds clients of the
    hooked class, with false of the plain class, and an omitted
    [enable_hooks] is true, for [make_client] as well.  For a registered
    name both bound constructors return a client: bound to the same
    entry, carrying the same user agent and verbosity, built by the
    hooked and by the plain base constructor from the same arguments.
    On any call the two bound constructors end the same way; where they
    return, the two base constructors have received the same
    descriptor, positional extras and keywords. *)
Theorem hooks_select_base_class ua w0 :
  make_client_factory ua None w0 = make_client_factory ua (Some true) w0 ∧
  (∀ reference w,
     make_client reference ua None w = make_client reference ua (Some true) w) ∧
  ∃ hooked plain,
    make_client_factory ua (Some true) w0
    = (Returned hooked, log w0 [EvGetOptions]) ∧
    make_client_factory ua (Some false) w0
    = (Returned plain, log w0 [EvGetOptions]) ∧
    (∀ n d w, CLUSTERS !! n = Some d →
       ∃ ch cp kw,
         partial_call hooked [PStr n] ∅ w
         = (Returned ch,
            log w [EvContains (PStr n); EvGetItem (PStr n);
                   EvInit HookedAuroraClientAPI d [] kw]) ∧
         partial_call plain [PStr n] ∅ w
         = (Returned cp,
            log w [EvContains (PStr n); EvGetItem (PStr n);
                   EvInit AuroraClientAPI d [] kw]) ∧
         client_class ch = HookedAuroraClientAPI ∧
         client_class cp = AuroraClientAPI ∧
         cluster ch = d ∧ cluster cp = d ∧
         init_kw ch = kw ∧ init_kw cp = kw ∧
         client_user_agent ch = Some ua ∧ client_user_agent cp = Some ua ∧
         client_verbose ch = Some (PBool (ambient_verbose w0)) ∧
         client_verbose cp = Some (PBool (ambient_verbose w0)) ∧
         (∃ c w', make_client (PStr n) ua (Some true) w = (Returned c, w') ∧
                  client_class c = HookedAuroraClientAPI) ∧
         (∃ c w', make_client (PStr n) ua (Some false) w = (Returned c, w') ∧
                  client_class c = AuroraClientAPI)) ∧
    ∀ a k w,
      match partial_call hooked a k w, partial_call plain a k w with
      | (Returned ch, wh), (Returned cp, wp) =>
          client_class ch = HookedAuroraClientAPI ∧
          client_class cp = AuroraClientAPI ∧
          cluster ch = cluster cp ∧ init_args ch = init_args cp ∧
          init_kw ch = init_kw cp ∧
          ∃ es d rest kw,
            wh = log w (es ++ [EvInit HookedAuroraClientAPI d rest kw]) ∧
            wp = log w (es ++ [EvInit AuroraClientAPI d rest kw]) ∧
            cluster ch = d ∧ init_args ch = rest ∧ init_kw ch = kw
      | (Terminated, wh), (Terminated, wp) => wh = wp
      | (Raised eh, wh), (Raised ep, wp) => eh = ep ∧ wh = wp
      | _, _ => False
      end.
Proof.
  split; [done|]. split; [done|].
  eexists _, _. split; [apply factory_run|]. split; [apply factory_run|].
  simpl default. cbv iota. split.
  - intros n d w Hn. eexists _, _, _.
    rewrite !bound_call by stored.
    rewrite !(init_known _ (PStr n) d) by done.
    rewrite (left_id_L ∅ (∪)).
    split; [done|]. split; [done|].
    unfold client_user_agent, client_verbose. simpl.
    rewrite lookup_insert_eq, lookup_insert_ne by done.
    rewrite lookup_singleton_eq.
    do 10 (split; [done|]).
    rewrite !make_client_cases. simpl. rewrite Hn.
    split; by eexists _, _.
  - intros a k w.
    unfold partial_call, TwitterAuroraClientAPI. simpl.
    destruct (bind_init _ _) as [e|[[key rest] kw]]; [done|].
    pose proof (init_either key rest kw w) as H.
    destruct (TwitterAuroraClientAPI_init HookedAuroraClientAPI key rest kw w)
      as [[ch| |eh] wh];
      destruct (TwitterAuroraClientAPI_init AuroraClientAPI key rest kw w)
        as [[cp| |ep] wp]; try done.
    destruct H as (?&?&?&?&?& es & d & ?). repeat split; try done.
    by exists es, d, rest, kw.
Qed.

(** C6, as the code has it.  [make_client_factory] reads the ambient
    options once.  The bound constructor never reads them: in any two
    later worlds, whatever their ambient verbosity, the same call ends
    the same way with the same client.  That client carries the
    verbosity captured when the factory was made unless the call itself
    passes a [verbose] keyword. *)
Theorem verbosity_read_once ua hooks w0 :
  ∃ bound w1,
    make_client_factory ua hooks w0 = (Returned bound, w1) ∧
    count is_get_options (trace w1) = S (count is_get_options (trace w0)) ∧
    ∀ a k wA wB,
      fst (partial_call bound a k wA) = fst (partial_call bound a k wB) ∧
      count is_get_options (trace (snd (partial_call bound a k wA)))
      = count is_get_options (trace wA) ∧
      (∀ c, fst (partial_call bound a k wA) = Returned c →
            k !! "verbose" = None →
            client_verbose c = Some (PBool (ambient_verbose w0))).
Proof.
  eexists _, _. split; [apply factory_run|]. split.
  { rewrite trace_log, count_app.
    change (count is_get_options [EvGetOptions]) with 1. lia. }
  intros a k wA wB. split; [apply bound_call_world|].
  destruct (bound_call_cases
              (if default true hooks then HookedAuroraClientAPI
               else AuroraClientAPI)
              ua (PBool (ambient_verbose w0)) a k wA)
    as [[e He]|[[key Hkey]|(key & d & rest & kw & _ & _ & Hv & Hr)]].
  - rewrite He. split; [done|]. by intros c.
  - rewrite Hkey. split; [|by intros c].
    simpl. rewrite count_app.
    change (count is_get_options [_; _]) with 0. lia.
  - rewrite Hr. split.
    + simpl. rewrite count_app.
      change (count is_get_options [_; _; _]) with 0. lia.
    + intros c [= <-] Hk. unfold client_verbose. simpl.
      by rewrite Hv, Hk.
Qed.

(** C7.  [make_client] given a cluster object does in every respect what
    it does given the name of that object: the same outcome and the
    same events.  With the name registered both return a client bound
    to the entry of the name; otherwise both end with the diagnostic
    that names it. *)
Theorem reference_normalization obj ua hooks w :
  make_client (PCluster obj) ua hooks w
  = make_client (PStr (name obj)) ua hooks w
  ∧ match CLUSTERS !! name obj with
    | Some d =>
        ∃ c w', make_client (PCluster obj) ua hooks w = (Returned c, w') ∧
                cluster c = d
    | None =>
        make_client (PCluster obj) ua hooks w
        = (Terminated,
           log w [EvGetOptions; EvContains (PStr (name obj));
                  EvDie ("Unknown cluster: " +:+ name obj)])
    end.
Proof.
  split.
  - by rewrite !make_client_cases.
  - rewrite make_client_cases. simpl.
    destruct (CLUSTERS !! name obj) as [d|]; [by eexists _, _|done].
Qed.

(** C8, as the code has it.  The verbosity the factory stores is true
    exactly when the ambient setting is the string [verbose]; an absent
    setting reads as [normal], the stored flag is false, and every
    client of that factory is not verbose unless the call itself passes
    a [verbose] keyword. *)
Theorem verbose_iff_ambient ua hooks w0 :
  ∃ bound w1 b,
    make_client_factory ua hooks w0 = (Returned bound, w1) ∧
    keywords bound !! "verbose" = Some (PBool b) ∧
    (b = true ↔ options w0 !! "verbosity" = Some (PStr "verbose")) ∧
    (options w0 !! "verbosity" = None →
       getattr (options w0) "verbosity" (PStr "normal") = PStr "normal" ∧
       b = false ∧
       ∀ a k w c w',
         partial_call bound a k w = (Returned c, w') →
         k !! "verbose" = None →
         client_verbose c = Some (PBool false)).
Proof.
  eexists _, _, (ambient_verbose w0). split; [apply factory_run|].
  split; [|split].
  - simpl. rewrite lookup_insert_ne by done. by rewrite lookup_singleton_eq.
  - unfold ambient_verbose. apply bool_decide_eq_true.
  - intros Habs.
    assert (ambient_verbose w0 = false) as Hb.
    { unfold ambient_verbose. apply bool_decide_eq_false_2. by rewrite Habs. }
    split; [|split; [done|]].
    + unfold getattr. by rewrite Habs.
    + intros a k w c w' Hcall Hk.
      destruct (bound_call_cases
                  (if default true hooks then HookedAuroraClientAPI
                   else AuroraClientAPI)
                  ua (PBool (ambient_verbose w0)) a k w)
        as [[e He]|[[key Hkey]|(key & d & rest & kw & _ & _ & Hv & Hr)]].
      * rewrite He in Hcall. discriminate.
      * rewrite Hkey in Hcall. discriminate.
      * rewrite Hr in Hcall. injection Hcall as <- <-.
        unfold client_verbose. simpl. by rewrite Hv, Hk, Hb.
Qed.

(** C9.  [make_client] is the composition the specification names: a
    fresh factory applied at once to the extracted name.  A call leaves
    the ambient options as they are and only adds its events to the
    trace; its outcome and its events are the same in any two worlds
    with the same ambient options, whatever happened before, so a call
    made earlier changes nothing for a later one. *)
Theorem make_client_is_composition reference ua hooks w :
  make_client reference ua hooks w = create_client_spec reference ua hooks w
  ∧ (∃ es, snd (make_client reference ua hooks w) = log w es ∧
       ∀ w2, options w2 = options w →
         make_client reference ua hooks w2
         = (fst (make_client reference ua hooks w), log w2 es))
  ∧ (∀ reference' ua' hooks',
       fst (make_client reference ua hooks
              (snd (make_client reference' ua' hooks' w)))
       = fst (make_client reference ua hooks w)).
Proof.
  assert (∀ w2, options w2 = options w →
            ambient_verbose w2 = ambient_verbose w) as Hamb.
  { intros w2 Ho. unfold ambient_verbose. by rewrite Ho. }
  split; [|split].
  - rewrite make_client_run.
    unfold create_client_spec, create_factory. rewrite factory_run.
    rewrite bound_call by stored.
    rewrite (left_id_L ∅ (∪)). by destruct reference.
  - rewrite make_client_cases. simpl.
    destruct (entry (extract_name reference)) as [d|] eqn:E.
    + eexists. split; [done|]. intros w2 Ho.
      rewrite make_client_cases. simpl. by rewrite E, (Hamb w2).
    + eexists. split; [done|]. intros w2 Ho.
      rewrite make_client_cases. simpl. by rewrite E.
  - intros reference' ua' hooks'.
    assert (options (snd (make_client reference' ua' hooks' w)) = options w)
      as Ho.
    { rewrite make_client_cases. simpl.
      by destruct (entry (extract_name reference')). }
    rewrite (make_client_cases reference ua hooks w).
    rewrite (make_client_cases reference ua hooks (snd _)). simpl.
    rewrite (Hamb _ Ho).
    by destruct (entry (extract_name reference)).
Qed.

(** ** Further properties of the module *)

Lemma merged_cluster_key (k : Kwargs) ua v :
  (k ∪ {[ "user_agent" := ua; "verbose" := v ]}) !! "cluster" = k !! "cluster".
Proof.
  destruct (k !! "cluster") as [x|] eqn:E.
  - by apply lookup_union_Some_l.
  - rewrite lookup_union_r by done. apply stored_no_cluster.
Qed.

(** [__init__] ends by returning or by [die], as the registry decides. *)
Lemma init_outcome base key a kw w :
  TwitterAuroraClientAPI_init base key a kw w
  = match entry key with
    | Some d =>
        (Returned (mkClient base d a kw),
         log w [EvContains key; EvGetItem key; EvInit base d a kw])
    | None =>
        (Terminated,
         log w [EvContains key; EvDie ("Unknown cluster: " +:+ py_str key)])
    end.
Proof.
  destruct (entry key) as [d|] eqn:E.
  - by apply init_known.
  - by apply init_unknown.
Qed.

(** A call of the bound constructor that does not bind its parameters
    raises a [TypeError] before anything else happens: a [self]
    keyword, no positional argument and no [cluster] keyword, or a
    positional argument together with a [cluster] keyword.  Every other
    call begins by asking the registry about the cluster it was given,
    the first positional argument or else the [cluster] keyword. *)
Theorem unbound_call_raises ua hooks w0 :
  ∃ bound,
    make_client_factory ua hooks w0 = (Returned bound, log w0 [EvGetOptions]) ∧
    ∀ a (k : Kwargs) w,
      let unbound :=
        is_Some (k !! "self") ∨
        (a = [] ∧ k !! "cluster" = None) ∨
        (a ≠ [] ∧ is_Some (k !! "cluster")) in
      (unbound →
         ∃ msg, partial_call bound a k w = (Raised (TypeError msg), w)) ∧
      (¬ unbound →
         ∃ key es,
           snd (partial_call bound a k w) = log w (EvContains key :: es) ∧
           (head a = Some key ∨ (a = [] ∧ k !! "cluster" = Some key))).
Proof.
  eexists. split; [apply factory_run|]. intros a k w unbound. subst unbound.
  unfold partial_call, TwitterAuroraClientAPI, bind_init. simpl.
  rewrite merged_self_key, merged_cluster_key.
  destruct (k !! "self") as [x|] eqn:Es.
  { split; [by eexists|]. intros Hn. destruct Hn. left. by eexists. }
  destruct a as [|x rest]; destruct (k !! "cluster") as [c|] eqn:Ek; simpl.
  - split.
    + intros [[? ?]|[[_ ?]|[? _]]]; done.
    + intros _. rewrite init_outcome.
      destruct (entry c); eexists c, _; (split; [done | by right]).
  - split; [by eexists|]. intros Hn. destruct Hn. right; by left.
  - split; [by eexists|]. intros Hn. destruct Hn.
    right; right. split; [done | by eexists].
  - split.
    + intros [[? ?]|[[? _]|[_ [? ?]]]]; done.
    + intros _. rewrite init_outcome.
      destruct (entry x); eexists x, _; (split; [done | by left]).
Qed.

(** The cluster may be given by keyword: [bound(cluster=r, **k)] does
    what [bound(r, **k)] does, and the [cluster] keyword is not handed
    on to the base constructor. *)
Theorem cluster_by_keyword ua hooks w0 :
  ∃ bound,
    make_client_factory ua hooks w0 = (Returned bound, log w0 [EvGetOptions]) ∧
    ∀ reference (k : Kwargs) w,
      k !! "cluster" = None →
      partial_call bound [] (<["cluster" := reference]> k) w
      = partial_call bound [reference] k w ∧
      ∀ c, fst (partial_call bound [] (<["cluster" := reference]> k) w)
           = Returned c →
           init_kw c !! "cluster" = None.
Proof.
  eexists. split; [apply factory_run|]. intros reference k w Hk.
  unfold partial_call, TwitterAuroraClientAPI, bind_init. simpl.
  rewrite !merged_self_key, lookup_insert_ne by done.
  destruct (k !! "self") as [x|] eqn:Es; [done|].
  rewrite !merged_cluster_key, Hk, lookup_insert_eq.
  rewrite <- insert_union_l, delete_insert_eq.
  rewrite delete_id by (by rewrite merged_cluster_key).
  split; [done|].
  intros c. rewrite init_outcome.
  destruct (entry reference); [|done].
  intros [= <-]. simpl. by rewrite merged_cluster_key.
Qed.

(** The extras of a call reach the base constructor as they are: the
    positional ones unchanged and in order, every keyword of the call
    with its value, and besides them only [user_agent] and [verbose]. *)
Theorem extras_forwarded ua hooks w0 :
  ∃ bound,
    make_client_factory ua hooks w0 = (Returned bound, log w0 [EvGetOptions]) ∧
    ∀ reference a (k : Kwargs) w c w',
      k !! "cluster" = None →
      partial_call bound (reference :: a) k w = (Returned c, w') →
      init_args c = a ∧
      (∀ key v, k !! key = Some v → init_kw c !! key = Some v) ∧
      dom (init_kw c) = dom k ∪ {[ "user_agent"; "verbose" ]} ∧
      entry reference = Some (cluster c) ∧
      last (trace w')
      = Some (EvInit (client_class c) (cluster c) a (init_kw c)).
Proof.
  eexists. split; [apply factory_run|].
  intros reference a k w c w' Hk.
  destruct (k !! "self") as [x|] eqn:Es.
  { unfold partial_call, TwitterAuroraClientAPI, bind_init. simpl.
    by rewrite merged_self_key, Es. }
  rewrite bound_call by stored.
  rewrite init_outcome. destruct (entry reference) as [d|]; [|done].
  intros [= <- <-]. simpl. split; [done|]. split; [|split; [|split]].
  - intros key v Hv. by apply lookup_union_Some_l.
  - rewrite dom_union_L, dom_insert_L, dom_singleton_L. set_solver.
  - done.
  - by rewrite last_app.
Qed.

(** The events of a call of the bound constructor, by how it ends.  A
    returned client comes with exactly one base constructor call, the
    last event, and no diagnostic; a call that [die] ended has exactly
    one diagnostic, its last event, and no base constructor call; a
    call that ends otherwise has no diagnostic and at most one base
    constructor call.  The call itself never reads the options and
    leaves them as they are. *)
Theorem bound_call_effects ua hooks w0 :
  ∃ bound,
    make_client_factory ua hooks w0 = (Returned bound, log w0 [EvGetOptions]) ∧
    ∀ a k w, ∃ es,
      snd (partial_call bound a k w) = log w es ∧
      count is_get_options es = 0 ∧
      match fst (partial_call bound a k w) with
      | Returned c =>
          count is_init es = 1 ∧ count is_die es = 0 ∧
          ∃ rest kw,
            last es = Some (EvInit (client_class c) (cluster c) rest kw)
      | Terminated =>
          count is_init es = 0 ∧ count is_die es = 1 ∧
          ∃ msg, last es = Some (EvDie msg)
      | Raised _ => count is_init es ≤ 1 ∧ count is_die es = 0
      end.
Proof.
  eexists. split; [apply factory_run|]. intros a k w.
  destruct (bound_call_cases
              (if default true hooks then HookedAuroraClientAPI
               else AuroraClientAPI)
              ua (PBool (ambient_verbose w0)) a k w)
    as [[e He]|[[key Hkey]|(key & d & rest & kw & _ & _ & _ & Hr)]].
  - exists []. rewrite He. simpl. split; [|split; [done|]].
    + unfold log. rewrite app_nil_r. by destruct w.
    + split; [|done]. change (count is_init []) with 0. lia.
  - eexists. rewrite Hkey. simpl. split; [done|]. split; [done|].
    split; [done|]. split; [done|]. by eexists.
  - eexists. rewrite Hr. simpl. repeat split. by eexists _, _.
Qed.

(** A reference that is neither a name nor a cluster object, such as
    [None], goes to the registry as it is, is not found, and
    [make_client] ends with the diagnostic that shows it. *)
Theorem make_client_foreign_reference reference ua hooks w :
  (reference = PNone ∨ ∃ b, reference = PBool b) →
  make_client reference ua hooks w
  = (Terminated,
     log w [EvGetOptions; EvContains reference;
            EvDie ("Unknown cluster: " +:+ py_str reference)]).
Proof.
  intros Href. rewrite make_client_cases.
  by destruct Href as [->|[b ->]].
Qed.

(** [make_client] makes a new factory in every call, so it reads the
    ambient options once per call: the client it returns carries the
    verbosity of the moment of the call and the given user agent, has
    no positional extras and no keywords but these two, and is of the
    hooked class unless [enable_hooks] is false.  Two calls made under
    different ambient verbosity return clients of different verbosity. *)
Theorem make_client_reads_ambient reference ua hooks w :
  (∃ es, snd (make_client reference ua hooks w) = log w es ∧
         count is_get_options es = 1) ∧
  (∀ c, fst (make_client reference ua hooks w) = Returned c →
        client_verbose c = Some (PBool (ambient_verbose w)) ∧
        client_user_agent c = Some ua ∧
        init_args c = [] ∧
        dom (init_kw c) = {[ "user_agent"; "verbose" ]} ∧
        client_class c = (if default true hooks then HookedAuroraClientAPI
                          else AuroraClientAPI)) ∧
  (∀ w2 c c2,
     ambient_verbose w2 ≠ ambient_verbose w →
     fst (make_client reference ua hooks w) = Returned c →
     fst (make_client reference ua hooks w2) = Returned c2 →
     client_verbose c2 ≠ client_verbose c).
Proof.
  assert (∀ w1 c1, fst (make_client reference ua hooks w1) = Returned c1 →
            client_verbose c1 = Some (PBool (ambient_verbose w1)) ∧
            client_user_agent c1 = Some ua ∧
            init_args c1 = [] ∧
            dom (init_kw c1) = {[ "user_agent"; "verbose" ]} ∧
            client_class c1 = (if default true hooks
                               then HookedAuroraClientAPI
                               else AuroraClientAPI)) as Hclient.
  { intros w1 c1. rewrite make_client_cases. simpl.
    destruct (entry (extract_name reference)); [|done].
    intros [= <-]. unfold client_verbose, client_user_agent. simpl.
    rewrite lookup_insert_eq, lookup_insert_ne by done.
    rewrite lookup_singleton_eq.
    split; [done|]. split; [done|]. split; [done|]. split; [|done].
    rewrite dom_insert_L, dom_singleton_L. set_solver. }
  split; [|split].
  - rewrite make_client_cases. simpl.
    destruct (entry (extract_name reference)); by eexists.
  - apply Hclient.
  - intros w2 c c2 Hne Hc Hc2.
    destruct (Hclient _ _ Hc) as [-> _].
    destruct (Hclient _ _ Hc2) as [-> _]. congruence.
Qed.

(** Of a cluster object [make_client] uses the name only: two objects of
    the same name give the same result, and a returned client is bound
    to the entry the registry has under that name, whatever else the
    object given holds. *)
Theorem only_name_matters o1 o2 ua hooks w :
  name o1 = name o2 →
  make_client (PCluster o1) ua hooks w = make_client (PCluster o2) ua hooks w ∧
  ∀ c, fst (make_client (PCluster o2) ua hooks w) = Returned c →
       CLUSTERS !! name o1 = Some (cluster c).
Proof.
  intros Hname. rewrite !make_client_cases. simpl. rewrite Hname.
  split; [done|]. intros c.
  destruct (CLUSTERS !! name o2); [|done]. by intros [= <-].
Qed.

End Factory.

(** ** The claims at concrete inputs *)


Lemma known_cluster_binds_witness :
  two_clusters !! "west" = Some west ∧
  ∃ c es,
    make_client two_clusters show_cluster (PStr "west") (PStr "agent/1.0")
      None quiet
    = (Returned c, log quiet es) ∧
    cluster c = west ∧
    last es = Some (EvInit (client_class c) west (init_args c) (init_kw c)) ∧
    count is_init es = 1.
Proof.
  split; [reflexivity|].
  apply (known_cluster_binds two_clusters show_cluster "west" west).
  reflexivity.
Defined.

Lemma bound_constructor_key_witness :
  ∃ bound,
    make_client_factory two_clusters show_cluster (PStr "agent/1.0") None quiet
    = (Returned bound, log quiet [EvGetOptions]) ∧
    (∃ c w', partial_call bound [PStr "west"] ∅ quiet = (Returned c, w') ∧
             cluster c = west) ∧
    (∃ es cls kw,
       snd (partial_call bound [PStr "west"; PNone] ∅ quiet) = log quiet es ∧
       registry_keys es = [PStr "west"; PStr "west"] ∧
       last es = Some (EvInit cls west [PNone] kw)) ∧
    (∃ es,
       snd (partial_call bound [PCluster west] ∅ quiet) = log quiet es ∧
       head (registry_keys es) = Some (PCluster west) ∧
       ∀ key, key ∈ registry_keys es → key = PCluster west) ∧
    (∃ c es,
       make_client two_clusters show_cluster (PCluster west)
         (PStr "agent/1.0") None quiet
       = (Returned c, log quiet es) ∧
       cluster c = west ∧
       registry_keys es = [PStr "west"; PStr "west"]).
Proof.
  destruct (bound_constructor_key two_clusters show_cluster
              (PStr "agent/1.0") None quiet)
    as (bound & Hb & Hname & Hobj & Hmk).
  destruct (Hname "west" west quiet) as [Hplain Hextras]; [reflexivity|].
  exists bound. split; [exact Hb|]. split; [exact Hplain|]. split; [|split].
  - apply Hextras; reflexivity.
  - apply Hobj; reflexivity.
  - apply (Hmk west west quiet). reflexivity.
Defined.

Lemma bound_configuration_witness :
  ∃ bound c w',
    make_client_factory two_clusters show_cluster (PStr "X") (Some false) loud
    = (Returned bound, log loud [EvGetOptions]) ∧
    partial_call bound [PStr "east"; PNone]
      {[ "session_key_factory" := PNone ]} quiet
    = (Returned c, w') ∧
    client_user_agent c = Some (PStr "X") ∧
    client_verbose c = Some (PBool true) ∧
    client_class c = AuroraClientAPI.
Proof.
  destruct (bound_configuration two_clusters show_cluster
              (PStr "X") (Some false) loud)
    as (bound & Hb & Hcall).
  pose proof Hb as Hf. rewrite factory_run in Hf. injection Hf as Hbound.
  assert (∃ c w',
    partial_call bound [PStr "east"; PNone]
      {[ "session_key_factory" := PNone ]} quiet = (Returned c, w'))
    as (c & w' & Hrun).
  { rewrite <- Hbound. eexists _, _. reflexivity. }
  destruct (Hcall _ _ _ _ _ Hrun) as (Hua & Hv & _ & _ & Hcls).
  exists bound, c, w'. split; [exact Hb|]. split; [exact Hrun|].
  split; [apply Hua; reflexivity|]. split; [apply Hv; reflexivity|].
  exact Hcls.
Defined.

Lemma hooks_select_base_class_witness :
  two_clusters !! "west" = Some west ∧
  ∃ hooked plain ch cp wh wp,
    make_client_factory two_clusters show_cluster (PStr "agent/1.0")
      (Some true) loud
    = (Returned hooked, log loud [EvGetOptions]) ∧
    make_client_factory two_clusters show_cluster (PStr "agent/1.0")
      (Some false) loud
    = (Returned plain, log loud [EvGetOptions]) ∧
    partial_call hooked [PStr "west"] ∅ quiet = (Returned ch, wh) ∧
    partial_call plain [PStr "west"] ∅ quiet = (Returned cp, wp) ∧
    client_class ch = HookedAuroraClientAPI ∧
    client_class cp = AuroraClientAPI ∧
    cluster ch = west ∧ cluster cp = west ∧
    init_kw ch = init_kw cp.
Proof.
  split; [reflexivity|].
  destruct (hooks_select_base_class two_clusters show_cluster
              (PStr "agent/1.0") loud)
    as (_ & _ & hooked & plain & Hh & Hp & Hreg & _).
  destruct (Hreg "west" west quiet) as (ch & cp & kw & Hch & Hcp & Hcls);
    [reflexivity|].
  destruct Hcls as (H1 & H2 & H3 & H4 & H5 & H6 & _).
  exists hooked, plain, ch, cp. eexists _, _.
  split; [exact Hh|]. split; [exact Hp|].
  split; [exact Hch|]. split; [exact Hcp|].
  split; [exact H1|]. split; [exact H2|]. split; [exact H3|].
  split; [exact H4|]. rewrite H5, H6. reflexivity.
Defined.

Lemma verbosity_read_once_witness :
  ∃ bound w1 c,
    make_client_factory two_clusters show_cluster (PStr "agent/1.0") None loud
    = (Returned bound, w1) ∧
    count is_get_options (trace w1) = 1 ∧
    fst (partial_call bound [PStr "west"] ∅ quiet) = Returned c ∧
    client_verbose c = Some (PBool true).
Proof.
  destruct (verbosity_read_once two_clusters show_cluster
              (PStr "agent/1.0") None loud)
    as (bound & w1 & Hb & Hcount & Hcall).
  pose proof Hb as Hf. rewrite factory_run in Hf. injection Hf as Hbound _.
  assert (∃ c, fst (partial_call bound [PStr "west"] ∅ quiet) = Returned c)
    as (c & Hrun).
  { rewrite <- Hbound. eexists. reflexivity. }
  destruct (Hcall [PStr "west"] ∅ quiet quiet) as (_ & _ & Hv).
  exists bound, w1, c. split; [exact Hb|]. split; [exact Hcount|].
  split; [exact Hrun|]. apply Hv; [exact Hrun | reflexivity].
Defined.

Lemma reference_normalization_witness :
  make_client two_clusters show_cluster (PCluster west) (PStr "agent/1.0")
    None quiet
  = make_client two_clusters show_cluster (PStr "west") (PStr "agent/1.0")
      None quiet.
Proof.
  exact (proj1 (reference_normalization two_clusters show_cluster west
                  (PStr "agent/1.0") None quiet)).
Defined.

Lemma verbose_iff_ambient_witness :
  options quiet !! "verbosity" = None ∧
  ∃ bound w1 c w',
    make_client_factory two_clusters show_cluster (PStr "agent/1.0") None quiet
    = (Returned bound, w1) ∧
    keywords bound !! "verbose" = Some (PBool false) ∧
    partial_call bound [PStr "west"] ∅ loud = (Returned c, w') ∧
    client_verbose c = Some (PBool false).
Proof.
  split; [reflexivity|].
  destruct (verbose_iff_ambient two_clusters show_cluster
              (PStr "agent/1.0") None quiet)
    as (bound & w1 & b & Hb & Hkw & _ & Habsent).
  destruct Habsent as (_ & -> & Hcall); [reflexivity|].
  pose proof Hb as Hf. rewrite factory_run in Hf. injection Hf as Hbound _.
  assert (∃ c w', partial_call bound [PStr "west"] ∅ loud = (Returned c, w'))
    as (c & w' & Hrun).
  { rewrite <- Hbound. eexists _, _. reflexivity. }
  exists bound, w1, c, w'. split; [exact Hb|]. split; [exact Hkw|].
  split; [exact Hrun|]. apply (Hcall _ _ _ _ _ Hrun). reflexivity.
Defined.

Lemma make_client_is_composition_witness :
  let later := mkWorld ∅ [EvDie "Unknown cluster: north"] in
  options later = options quiet ∧
  ∃ es,
    snd (make_client two_clusters show_cluster (PStr "west")
           (PStr "agent/1.0") None quiet)
    = log quiet es ∧
    make_client two_clusters show_cluster (PStr "west") (PStr "agent/1.0")
      None later
    = (fst (make_client two_clusters show_cluster (PStr "west")
              (PStr "agent/1.0") None quiet),
       log later es).
Proof.
  intros later. split; [reflexivity|].
  destruct (proj1 (proj2 (make_client_is_composition two_clusters show_cluster
                            (PStr "west") (PStr "agent/1.0") None quiet)))
    as (es & Hes & Hany).
  exists es. split; [exact Hes|]. apply Hany. reflexivity.
Defined.


Lemma unbound_call_raises_witness :
  ∃ bound,
    make_client_factory two_clusters show_cluster (PStr "agent/1.0") None quiet
    = (Returned bound, log quiet [EvGetOptions]) ∧
    (∃ msg, partial_call bound [PStr "west"] {[ "self" := PNone ]} quiet
            = (Raised (TypeError msg), quiet)) ∧
    (∃ msg, partial_call bound [] ∅ quiet = (Raised (TypeError msg), quiet)) ∧
    (∃ key es,
       snd (partial_call bound [PStr "north"] ∅ quiet)
       = log quiet (EvContains key :: es) ∧
       key = PStr "north").
Proof.
  destruct (unbound_call_raises two_clusters show_cluster
              (PStr "agent/1.0") None quiet)
    as (bound & Hb & Hcall).
  exists bound. split; [exact Hb|]. split; [|split].
  - apply (Hcall [PStr "west"] {[ "self" := PNone ]} quiet).
    left. eexists. reflexivity.
  - apply (Hcall [] ∅ quiet). right. left. split; reflexivity.
  - destruct (proj2 (Hcall [PStr "north"] ∅ quiet)) as (key & es & Hes & Hkey).
    + intros [[x Hx]|[[Ha _]|[_ [x Hx]]]]; discriminate.
    + exists key, es. split; [exact Hes|].
      destruct Hkey as [Hhead|[Ha _]]; [|discriminate].
      injection Hhead as Hhead. symmetry. exact Hhead.
Defined.

Lemma cluster_by_keyword_witness :
  ∃ bound,
    make_client_factory two_clusters show_cluster (PStr "agent/1.0") None quiet
    = (Returned bound, log quiet [EvGetOptions]) ∧
    partial_call bound []
      (<["cluster" := PStr "west"]> {[ "session_key_factory" := PNone ]}) quiet
    = partial_call bound [PStr "west"]
        {[ "session_key_factory" := PNone ]} quiet.
Proof.
  destruct (cluster_by_keyword two_clusters show_cluster
              (PStr "agent/1.0") None quiet)
    as (bound & Hb & Hcall).
  exists bound. split; [exact Hb|].
  destruct (Hcall (PStr "west") {[ "session_key_factory" := PNone ]} quiet)
    as [Heq _]; [reflexivity | exact Heq].
Defined.

Lemma extras_forwarded_witness :
  ∃ bound c w',
    make_client_factory two_clusters show_cluster (PStr "agent/1.0") None quiet
    = (Returned bound, log quiet [EvGetOptions]) ∧
    partial_call bound [PStr "east"; PBool true]
      {[ "session_key_factory" := PNone ]} quiet
    = (Returned c, w') ∧
    init_args c = [PBool true] ∧
    init_kw c !! "session_key_factory" = Some PNone ∧
    cluster c = east.
Proof.
  destruct (extras_forwarded two_clusters show_cluster
              (PStr "agent/1.0") None quiet)
    as (bound & Hb & Hcall).
  pose proof Hb as Hf. rewrite factory_run in Hf. injection Hf as Hbound.
  assert (∃ c w',
    partial_call bound [PStr "east"; PBool true]
      {[ "session_key_factory" := PNone ]} quiet = (Returned c, w'))
    as (c & w' & Hrun).
  { rewrite <- Hbound. eexists _, _. reflexivity. }
  destruct (λ Hk, Hcall _ _ _ _ _ _ Hk Hrun)
    as (Hargs & Hkw & _ & Hentry & _); [reflexivity|].
  exists bound, c, w'. split; [exact Hb|]. split; [exact Hrun|].
  split; [exact Hargs|]. split; [apply Hkw; reflexivity|].
  injection Hentry as Heast. symmetry. exact Heast.
Defined.

Lemma bound_call_effects_witness :
  ∃ bound es,
    make_client_factory two_clusters show_cluster (PStr "agent/1.0") None quiet
    = (Returned bound, log quiet [EvGetOptions]) ∧
    snd (partial_call bound [PStr "north"] ∅ loud) = log loud es ∧
    count is_get_options es = 0.
Proof.
  destruct (bound_call_effects two_clusters show_cluster
              (PStr "agent/1.0") None quiet)
    as (bound & Hb & Hcall).
  destruct (Hcall [PStr "north"] ∅ loud) as (es & Hes & Hread & _).
  exists bound, es. split; [exact Hb|]. split; [exact Hes | exact Hread].
Defined.

Lemma make_client_foreign_reference_witness :
  make_client two_clusters show_cluster PNone (PStr "agent/1.0") None quiet
  = (Terminated,
     log quiet [EvGetOptions; EvContains PNone;
                EvDie "Unknown cluster: None"]).
Proof.
  apply (make_client_foreign_reference two_clusters show_cluster PNone).
  left. reflexivity.
Defined.

Lemma make_client_reads_ambient_witness :
  ∃ c c2,
    fst (make_client two_clusters show_cluster (PStr "west")
           (PStr "agent/1.0") None quiet) = Returned c ∧
    fst (make_client two_clusters show_cluster (PStr "west")
           (PStr "agent/1.0") None loud) = Returned c2 ∧
    client_verbose c2 ≠ client_verbose c.
Proof.
  eexists _, _. split; [reflexivity|]. split; [reflexivity|].
  apply (proj2 (proj2 (make_client_reads_ambient two_clusters show_cluster
                         (PStr "west") (PStr "agent/1.0") None quiet)) loud).
  - vm_compute. discriminate.
  - reflexivity.
  - reflexivity.
Defined.

Lemma only_name_matters_witness :
  make_client two_clusters show_cluster (PCluster (mkCluster "west" []))
    (PStr "agent/1.0") None quiet
  = make_client two_clusters show_cluster (PCluster west)
      (PStr "agent/1.0") None quiet.
Proof.
  apply (only_name_matters two_clusters show_cluster
           (mkCluster "west" []) west).
  reflexivity.
Defined.

(** ** Where the specification and the code part *)

(** C3.  [west] is registered under its name.  The bound constructor
    called with the object [west] asks the registry about the object
    and at no point about the name [west]; called with the name it asks
    about the name. *)
Lemma object_key_asked_as_given :
  two_clusters !! name west = Some west ∧
  (∃ es,
     snd (factory_then_call two_clusters show_cluster (PStr "agent/1.0") None
            [PStr "west"] ∅ quiet)
     = log quiet es ∧
     registry_keys es = [PStr "west"; PStr "west"]) ∧
  (∃ es,
     snd (factory_then_call two_clusters show_cluster (PStr "agent/1.0") None
            [PCluster west] ∅ quiet)
     = log quiet es ∧
     head (registry_keys es) = Some (PCluster west) ∧
     PStr (name west) ∉ registry_keys es).
Proof.
  split; [reflexivity|]. split.
  - eexists. split; reflexivity.
  - eexists. split; [reflexivity|]. split; [reflexivity|].
    vm_compute. intros Hin. apply list_elem_of_singleton in Hin.
    discriminate.
Qed.

(** C4.  A factory made for user agent [X], called with the extra
    keyword [user_agent=Y], produces a client that carries [Y]. *)
Lemma call_keyword_replaces_user_agent :
  ∃ c w',
    factory_then_call two_clusters show_cluster (PStr "X") None
      [PStr "west"] {[ "user_agent" := PStr "Y" ]} quiet
    = (Returned c, w') ∧
    client_user_agent c = Some (PStr "Y") ∧
    client_user_agent c ≠ Some (PStr "X").
Proof.
  eexists _, _. split; [reflexivity|]. split; [reflexivity|].
  vm_compute. discriminate.
Qed.

(** C6.  A factory made while the ambient verbosity is [verbose], then
    called with the extra keyword [verbose=False], produces a client
    that does not carry the captured verbosity. *)
Lemma call_keyword_replaces_captured_verbose :
  ambient_verbose loud = true ∧
  ∃ bound w1 c w',
    make_client_factory two_clusters show_cluster (PStr "agent/1.0") None loud
    = (Returned bound, w1) ∧
    partial_call bound [PStr "west"] {[ "verbose" := PBool false ]} w1
    = (Returned c, w') ∧
    client_verbose c = Some (PBool false) ∧
    client_verbose c ≠ Some (PBool (ambient_verbose loud)).
Proof.
  split; [reflexivity|].
  eexists _, _, _, _. split; [reflexivity|]. split; [reflexivity|].
  split; [reflexivity|]. vm_compute. discriminate.
Qed.

(** C8.  A factory made with no ambient verbosity set, called with the
    extra keyword [verbose=True], produces a verbose client. *)
Lemma unset_verbosity_verbose_client :
  options quiet !! "verbosity" = None ∧
  ∃ c w',
    factory_then_call two_clusters show_cluster (PStr "agent/1.0")
      (Some false) [PStr "east"] {[ "verbose" := PBool true ]} quiet
    = (Returned c, w') ∧
    client_verbose c = Some (PBool true).
Proof.
  split; [reflexivity|]. eexists _, _. split; reflexivity.
Qed.
